(** * The deployment bot's Lex code hook (aws-lex-meta/bot.py)

    A shallow embedding of the code hook: the response builders, the
    response-card builder, the two intent handlers, the dispatcher and the
    Lambda entry point, followed by the properties of the dispatcher and of
    the builders.

    Python dictionaries with a fixed set of keys (the event, the response,
    a message, a card) are records; dictionaries used as maps (the slots,
    the session attributes) are [gmap]s; a value that may be [None] is an
    [option].  Exceptions and the two process-wide effects of the module
    (the root logger and the timezone of the process) are threaded through a
    small state-and-exception monad [Py]. *)

From stdpp Require Import base strings list gmap.

(** ** Python exceptions and the monad of the module *)

(** The ways a call can raise [TypeError] in this module. *)
Inductive type_error :=
| ConcatNone                           (* str + None *)
| MissingArgument (fn arg : string)    (* a required positional argument is not passed *)
| TooManyArguments (fn : string).

Inductive exn :=
| KeyError (key : string)
| IndexError
| TypeError (why : type_error)
| Exception (msg : string).

Inductive result (A : Type) :=
| Return (a : A)
| Raise (e : exn).
Arguments Return {A} a.
Arguments Raise {A} e.

#[export] Instance result_ret : MRet result := @Return.
#[export] Instance result_bind : MBind result := fun A B f r =>
  match r with
  | Return a => f a
  | Raise e => Raise e
  end.

(** What the module touches outside its arguments: [os.environ], the
    timezone that [time.tzset()] installs from it, and the records handed to
    the root logger (level DEBUG, so every [logger.debug] is emitted). *)
Record process := {
  environ : gmap string string;
  timezone : option string;
  log : list string
}.

Definition Py (A : Type) : Type := process -> result A * process.

#[export] Instance Py_ret : MRet Py := fun A a w => (Return a, w).
#[export] Instance Py_bind : MBind Py := fun A B f c w =>
  match c w with
  | (Return a, w') => f a w'
  | (Raise e, w') => (Raise e, w')
  end.

Definition lift {A} (r : result A) : Py A := fun w => (r, w).
Definition raise {A} (e : exn) : Py A := lift (Raise e).

(** [logger.debug(msg)] *)
Definition logger_debug (msg : string) : Py unit := fun w =>
  (Return tt, {| environ := environ w; timezone := timezone w; log := log w ++ [msg] |}).

(** [os.environ[k] = v] *)
Definition environ_set (k v : string) : Py unit := fun w =>
  (Return tt, {| environ := <[k := v]> (environ w); timezone := timezone w; log := log w |}).

(** [time.tzset()] *)
Definition tzset : Py unit := fun w =>
  (Return tt, {| environ := environ w; timezone := environ w !! "TZ"; log := log w |}).

(** [d[k]] on a dictionary: [KeyError] when the key is absent. *)
Definition getitem {V} (d : gmap string V) (k : string) : result V :=
  match d !! k with
  | Some v => Return v
  | None => Raise (KeyError k)
  end.

(** [l[i]] on a list: [IndexError] out of range. *)
Definition list_getitem {B} (l : list B) (i : nat) : result B :=
  match l !! i with
  | Some b => Return b
  | None => Raise IndexError
  end.

(** [s + v] where [s] is a [str] and [v] is a [str] or [None]. *)
Definition str_add (s : string) (v : option string) : result string :=
  match v with
  | Some t => Return (s +:+ t)
  | None => Raise (TypeError ConcatNone)
  end.

(** A call of the function [fn], which has one required positional
    parameter [arg], on the argument list [args]. *)
Definition call1 {A B} (fn arg : string) (f : A -> Py B) (args : list A) : Py B :=
  match args with
  | [] => raise (TypeError (MissingArgument fn arg))
  | [a] => f a
  | _ => raise (TypeError (TooManyArguments fn))
  end.

(** ** Data model *)

(** Slot name to slot value; an unset slot is present with value [None]. *)
Abbreviation slot_map := (gmap string (option string)).
Abbreviation attributes := (gmap string string).

Record message := { contentType : string; content : string }.

Module Bot.
Record t := { name : string }.
End Bot.

Module Intent.
Record t := { name : string; slots : slot_map }.
End Intent.

(** The event: [event['bot']['name']], [event['userId']],
    [event['currentIntent']['name']], [event['currentIntent']['slots']] and
    the nullable [event['sessionAttributes']]. *)
Module Req.
Record t := {
  bot : Bot.t;
  userId : string;
  currentIntent : Intent.t;
  sessionAttributes : option attributes
}.
End Req.

Inductive dialog_action :=
| ElicitSlot (intentName : string) (slots : slot_map) (slotToElicit : string) (msg : message)
| ConfirmIntent (intentName : string) (slots : slot_map) (msg : message)
| Close (fulfillmentState : string) (msg : message)
| Delegate (slots : slot_map).

(** The ['type'] entry of a dialog action. *)
Definition action_type (d : dialog_action) : string :=
  match d with
  | ElicitSlot _ _ _ _ => "ElicitSlot"
  | ConfirmIntent _ _ _ => "ConfirmIntent"
  | Close _ _ => "Close"
  | Delegate _ => "Delegate"
  end.

Module Resp.
Record t := { sessionAttributes : attributes; dialogAction : dialog_action }.
End Resp.

Module Card.
Record attachment (B : Type) := {
  title : string;
  subTitle : string;
  buttons : option (list B)
}.
Arguments title {B} _.
Arguments subTitle {B} _.
Arguments buttons {B} _.
Record t (B : Type) := {
  contentType : string;
  version : nat;
  genericAttachments : list (attachment B)
}.
Arguments contentType {B} _.
Arguments version {B} _.
Arguments genericAttachments {B} _.
End Card.

(** ** Helpers building the dialog actions *)

Definition elicit_slot (session_attributes : attributes) (intent_name : string)
    (slots : slot_map) (slot_to_elicit : string) (msg : message) : Resp.t :=
  {| Resp.sessionAttributes := session_attributes;
     Resp.dialogAction := ElicitSlot intent_name slots slot_to_elicit msg |}.

Definition confirm_intent (session_attributes : attributes) (intent_name : string)
    (slots : slot_map) (msg : message) : Resp.t :=
  {| Resp.sessionAttributes := session_attributes;
     Resp.dialogAction := ConfirmIntent intent_name slots msg |}.

Definition close (session_attributes : attributes) (fulfillment_state : string)
    (msg : message) : Resp.t :=
  {| Resp.sessionAttributes := session_attributes;
     Resp.dialogAction := Close fulfillment_state msg |}.

Definition delegate (session_attributes : attributes) (slots : slot_map) : Resp.t :=
  {| Resp.sessionAttributes := session_attributes;
     Resp.dialogAction := Delegate slots |}.

(** The loop [for i in range(...): buttons.append(options[i])], started
    from the list [buttons] built so far. *)
Fixpoint append_options {B} (options : list B) (range : list nat) (buttons : list B)
    : result (list B) :=
  match range with
  | [] => Return buttons
  | i :: range' =>
      match list_getitem options i with
      | Return o => append_options options range' (buttons ++ [o])
      | Raise e => Raise e
      end
  end.

Definition build_response_card {B} (title subtitle : string) (options : option (list B))
    : result (Card.t B) :=
  buttons ← match options with
            | None => Return None
            | Some opts =>
                bs ← append_options opts (seq 0 (min 5 (length opts))) [];
                Return (Some bs)
            end;
  Return {| Card.contentType := "application/vnd.amazonaws.card.generic";
            Card.version := 1;
            Card.genericAttachments :=
              [ {| Card.title := title; Card.subTitle := subtitle; Card.buttons := buttons |} ] |}.

(** ** The intent handlers *)

Definition deploy_prod_intent (intent_request : Req.t) : Py Resp.t :=
  itsm_number ← lift (getitem (Intent.slots (Req.currentIntent intent_request)) "itsmnumber");
  text ← lift (str_add "itsm_number" itsm_number);
  logger_debug text;;
  let output_session_attributes :=
    match Req.sessionAttributes intent_request with
    | Some attrs => attrs
    | None => ∅
    end in
  if decide (itsm_number = None) then
    mret (elicit_slot
            output_session_attributes
            "Deploytoprodintent"
            (Intent.slots (Req.currentIntent intent_request))
            "itsmnumber"
            {| contentType := "PlainText";
               content := "Please provide a valid ITSM Number" |})
  else
    mret (close
            output_session_attributes
            "Fulfilled"
            {| contentType := "PlainText";
               content := "Your deployment is scheduled" |}).

Definition deploy_intent (intent_request : Req.t) : Py Resp.t :=
  env_name ← lift (getitem (Intent.slots (Req.currentIntent intent_request)) "environment");
  let output_session_attributes :=
    match Req.sessionAttributes intent_request with
    | Some attrs => attrs
    | None => ∅
    end in
  if decide (env_name = Some "prod") then
    mret (elicit_slot
            output_session_attributes
            "Deploytoprodintent"
            (Intent.slots (Req.currentIntent intent_request))
            "itsmnumber"
            {| contentType := "PlainText";
               content := "Please provide valid ITSM number" |})
  else
    mret (close
            output_session_attributes
            "Fulfilled"
            {| contentType := "PlainText";
               content := "Your deployment is scheduled" |}).

(** ** The dispatcher and the entry point *)

(** The second branch is the call [deploy_prod_intent()]: the argument list
    is empty. *)
Definition dispatch (intent_request : Req.t) : Py Resp.t :=
  logger_debug ("dispatch userId=" +:+ Req.userId intent_request
                +:+ ", intentName=" +:+ Intent.name (Req.currentIntent intent_request));;
  let intent_name := Intent.name (Req.currentIntent intent_request) in
  if decide (intent_name = "DeploymentIntent") then
    deploy_intent intent_request
  else if decide (intent_name = "Deploytoprodintent") then
    call1 "deploy_prod_intent" "intent_request" deploy_prod_intent []
  else
    raise (Exception ("Intent with name " +:+ intent_name +:+ " not supported")).

Definition lambda_handler {C} (event : Req.t) (context : C) : Py Resp.t :=
  environ_set "TZ" "America/New_York";;
  tzset;;
  logger_debug ("event.bot.name=" +:+ Bot.name (Req.bot event));;
  dispatch event.

(** ** Vocabulary of the statements *)

(** What a call returns or raises, started in process state [w]. *)
Definition outcome {A} (c : Py A) (w : process) : result A := fst (c w).

(** The request [r] with slot [k] set to [v], everything else as it is. *)
Definition with_slot (k : string) (v : option string) (r : Req.t) : Req.t :=
  {| Req.bot := Req.bot r;
     Req.userId := Req.userId r;
     Req.currentIntent :=
       {| Intent.name := Intent.name (Req.currentIntent r);
          Intent.slots := <[k := v]> (Intent.slots (Req.currentIntent r)) |};
     Req.sessionAttributes := Req.sessionAttributes r |}.

(** The request [r] with its session attributes replaced by [sa]. *)
Definition with_session (sa : option attributes) (r : Req.t) : Req.t :=
  {| Req.bot := Req.bot r;
     Req.userId := Req.userId r;
     Req.currentIntent := Req.currentIntent r;
     Req.sessionAttributes := sa |}.

(** The process state in which [lambda_handler] calls [dispatch]. *)
Definition entered (event : Req.t) (w : process) : process :=
  {| environ := <["TZ" := "America/New_York"]> (environ w);
     timezone := Some "America/New_York";
     log := log w ++ ["event.bot.name=" +:+ Bot.name (Req.bot event)] |}.

(** The process state in which [dispatch] reaches its branches. *)
Definition dispatched (r : Req.t) (w : process) : process :=
  {| environ := environ w;
     timezone := timezone w;
     log := log w ++ ["dispatch userId=" +:+ Req.userId r +:+ ", intentName="
                      +:+ Intent.name (Req.currentIntent r)] |}.

(** The reply of the deployment intent to anything but ["prod"]. *)
Definition scheduled (sa : option attributes) : Resp.t :=
  {| Resp.sessionAttributes := default ∅ sa;
     Resp.dialogAction :=
       Close "Fulfilled"
         {| contentType := "PlainText"; content := "Your deployment is scheduled" |} |}.

(** A handler echoes the session attributes: a response it returns carries
    the session attributes of the request (the empty map when they are
    null), and with any other session attributes on the request it returns
    the same dialog action around those, in the same process state. *)
Definition echoes_session (h : Req.t → Py Resp.t) : Prop :=
  ∀ (r : Req.t) (w : process) (response : Resp.t),
    outcome (h r) w = Return response →
    Resp.sessionAttributes response = default ∅ (Req.sessionAttributes r) ∧
    ∀ sa : option attributes,
      h (with_session sa r) w =
        (Return {| Resp.sessionAttributes := default ∅ sa;
                   Resp.dialogAction := Resp.dialogAction response |},
         snd (h r w)).

(** ** Sample events *)

Definition idle : process := {| environ := ∅; timezone := None; log := [] |}.

Definition event_of (intent : string) (slots : slot_map) (sa : option attributes) : Req.t :=
  {| Req.bot := {| Bot.name := "DeployBot" |};
     Req.userId := "user-1";
     Req.currentIntent := {| Intent.name := intent; Intent.slots := slots |};
     Req.sessionAttributes := sa |}.

Definition deploy_to (env : option string) : Req.t :=
  event_of "DeploymentIntent" {[ "environment" := env ]} (Some {[ "team" := "infra" ]}).

Definition confirm_prod (itsm : option string) : Req.t :=
  event_of "Deploytoprodintent" {[ "itsmnumber" := itsm ]} None.

(** ** Proof support *)

Ltac py_unfold :=
  unfold outcome, mbind, mret, Py_bind, Py_ret, result_bind, result_ret,
    raise, lift, logger_debug, environ_set, tzset, getitem, str_add, call1 in *.

(** ** Equations of the handlers *)

Section Equations.
Context {C : Type} (ctx : C).
Implicit Types (r : Req.t) (w : process).

Lemma lambda_handler_dispatch r w :
  lambda_handler r ctx w = dispatch r (entered r w).
Proof.
  unfold lambda_handler, entered. py_unfold. simpl.
  by rewrite lookup_insert_eq.
Qed.

Lemma dispatch_deployment r w :
  Intent.name (Req.currentIntent r) = "DeploymentIntent" →
  dispatch r w = deploy_intent r (dispatched r w).
Proof.
  intros Hn. unfold dispatch, dispatched. py_unfold. simpl.
  rewrite Hn. by rewrite decide_True.
Qed.

Lemma dispatch_prod r w :
  Intent.name (Req.currentIntent r) = "Deploytoprodintent" →
  dispatch r w =
    (Raise (TypeError (MissingArgument "deploy_prod_intent" "intent_request")),
     dispatched r w).
Proof.
  intros Hn. unfold dispatch, dispatched. py_unfold. simpl.
  rewrite Hn. rewrite decide_False by done. by rewrite decide_True.
Qed.

Lemma dispatch_other r w :
  Intent.name (Req.currentIntent r) ≠ "DeploymentIntent" →
  Intent.name (Req.currentIntent r) ≠ "Deploytoprodintent" →
  dispatch r w =
    (Raise (Exception ("Intent with name " +:+ Intent.name (Req.currentIntent r)
                       +:+ " not supported")),
     dispatched r w).
Proof.
  intros H1 H2. unfold dispatch, dispatched. py_unfold. simpl.
  by rewrite !decide_False.
Qed.

(** [deploy_intent] leaves the process as it is. *)
Lemma deploy_intent_eq r w :
  deploy_intent r w =
    (match Intent.slots (Req.currentIntent r) !! "environment" with
     | None => Raise (KeyError "environment")
     | Some env_name =>
         Return
           (if decide (env_name = Some "prod") then
              elicit_slot (default ∅ (Req.sessionAttributes r)) "Deploytoprodintent"
                (Intent.slots (Req.currentIntent r)) "itsmnumber"
                {| contentType := "PlainText";
                   content := "Please provide valid ITSM number" |}
            else
              close (default ∅ (Req.sessionAttributes r)) "Fulfilled"
                {| contentType := "PlainText";
                   content := "Your deployment is scheduled" |})
     end, w).
Proof.
  unfold deploy_intent. py_unfold.
  destruct (Intent.slots (Req.currentIntent r) !! "environment") as [v|]; [|done].
  destruct (Req.sessionAttributes r); simpl; by case_decide.
Qed.

(** [deploy_prod_intent] called on a request: a null [itsmnumber] makes
    the argument of [logger.debug] raise before the test on it. *)
Lemma deploy_prod_intent_eq r w :
  deploy_prod_intent r w =
    match Intent.slots (Req.currentIntent r) !! "itsmnumber" with
    | None => (Raise (KeyError "itsmnumber"), w)
    | Some None => (Raise (TypeError ConcatNone), w)
    | Some (Some n) =>
        (Return (close (default ∅ (Req.sessionAttributes r)) "Fulfilled"
                   {| contentType := "PlainText";
                      content := "Your deployment is scheduled" |}),
         {| environ := environ w; timezone := timezone w;
            log := log w ++ ["itsm_number" +:+ n] |})
    end.
Proof.
  unfold deploy_prod_intent. py_unfold.
  destruct (Intent.slots (Req.currentIntent r) !! "itsmnumber") as [[n|]|]; [|done..].
  by destruct (Req.sessionAttributes r).
Qed.

End Equations.

(** ** The response card *)

Section CardLoop.
Context {B : Type}.
Implicit Types (options buttons : list B).

(** The loop over a range that stays inside [options] appends that
    segment of [options], in order, and raises nothing. *)
Lemma append_options_seq options n : ∀ start buttons,
  start + n ≤ length options →
  append_options options (seq start n) buttons
  = Return (buttons ++ take n (drop start options)).
Proof.
  induction n as [|n IH]; intros start buttons Hlen; simpl.
  - by rewrite app_nil_r.
  - destruct (lookup_lt_is_Some_2 options start) as [o Ho]; [lia|].
    unfold list_getitem. rewrite Ho.
    rewrite IH by lia.
    rewrite (drop_S _ _ _ Ho). simpl.
    by rewrite <- app_assoc.
Qed.

Lemma append_options_first_five options :
  append_options options (seq 0 (min 5 (length options))) [] = Return (take 5 options).
Proof.
  rewrite append_options_seq by lia. rewrite drop_0, app_nil_l. f_equal.
  destruct (decide (5 ≤ length options)).
  - by rewrite Nat.min_l.
  - rewrite Nat.min_r by lia. rewrite !take_ge; [done|lia..].
Qed.

End CardLoop.

(** C7, as the code has it: the card carries one attachment whose buttons
    are the first five options in input order (all of them when there are
    fewer), built without raising; the buttons are null exactly when the
    options argument is null, and a list, possibly empty, otherwise. *)
Theorem build_response_card_buttons {B} (title subtitle : string) (options : option (list B)) :
  build_response_card title subtitle options =
    Return {| Card.contentType := "application/vnd.amazonaws.card.generic";
              Card.version := 1;
              Card.genericAttachments :=
                [ {| Card.title := title; Card.subTitle := subtitle;
                     Card.buttons := take 5 <$> options |} ] |}.
Proof.
  unfold build_response_card, mbind, result_bind, mret, result_ret.
  destruct options as [opts|]; [|done].
  by rewrite append_options_first_five.
Qed.

(** Seven options give the first five, in order. *)
Example build_response_card_seven :
  build_response_card "Environment" "Pick one"
    (Some ["dev"; "qa"; "uat"; "stage"; "perf"; "dr"; "prod"]) =
    Return {| Card.contentType := "application/vnd.amazonaws.card.generic";
              Card.version := 1;
              Card.genericAttachments :=
                [ {| Card.title := "Environment"; Card.subTitle := "Pick one";
                     Card.buttons := Some ["dev"; "qa"; "uat"; "stage"; "perf"] |} ] |}.
Proof. reflexivity. Qed.

(** C7 as stated fails on an empty list of options: the buttons are the
    empty list, not null. *)
Lemma build_response_card_no_options_not_null :
  let card_of_none := build_response_card "Environment" "Pick one" (Some ([] : list string)) in
  card_of_none =
    Return {| Card.contentType := "application/vnd.amazonaws.card.generic";
              Card.version := 1;
              Card.genericAttachments :=
                [ {| Card.title := "Environment"; Card.subTitle := "Pick one";
                     Card.buttons := Some [] |} ] |} ∧
  ¬ ∃ card a,
      card_of_none = Return card ∧
      Card.genericAttachments card = [a] ∧ Card.buttons a = None.
Proof.
  split; [reflexivity|].
  intros (card & a & Hcard & Hatt & Hnull).
  injection Hcard as <-. injection Hatt as <-. done.
Qed.

(** ** The deployment intent *)

(** What the three entry points return on a [DeploymentIntent] event. *)
Lemma deployment_outcomes {C} (ctx : C) (r : Req.t) (w : process) :
  Intent.name (Req.currentIntent r) = "DeploymentIntent" →
  outcome (dispatch r) w = outcome (deploy_intent r) w ∧
  outcome (lambda_handler r ctx) w = outcome (deploy_intent r) w.
Proof.
  intros Hn. unfold outcome.
  rewrite lambda_handler_dispatch, !dispatch_deployment by done.
  by rewrite !deploy_intent_eq.
Qed.

(** Any value of the [environment] slot other than ["prod"] takes the
    [else] branch of [deploy_intent]. *)
Lemma deploy_intent_non_prod (r : Req.t) (w : process) (env : option string) :
  Intent.slots (Req.currentIntent r) !! "environment" = Some env →
  env ≠ Some "prod" →
  deploy_intent r w = (Return (scheduled (Req.sessionAttributes r)), w).
Proof. intros Henv Hne. rewrite deploy_intent_eq, Henv. by rewrite decide_False. Qed.

Lemma deploy_intent_with_non_prod (r : Req.t) (w : process) (env env' : option string) :
  Intent.slots (Req.currentIntent r) !! "environment" = Some env →
  env ≠ Some "prod" →
  env' ≠ Some "prod" →
  deploy_intent (with_slot "environment" env' r) w = deploy_intent r w.
Proof.
  intros Henv Hne Hne'.
  rewrite (deploy_intent_non_prod r w env), (deploy_intent_non_prod _ w env'); try done.
  simpl. by rewrite lookup_insert_eq.
Qed.

(** C1: on a [DeploymentIntent] event whose [environment] slot is ["prod"]
    the handler, called directly, by the dispatcher or by the entry point,
    returns an [ElicitSlot] response for slot [itsmnumber] of intent
    [Deploytoprodintent] that carries the slot map of the request as it is
    (and the session attributes of the request, or the empty map). *)
Theorem deployment_prod_elicits_itsmnumber {C} (ctx : C) (r : Req.t) (w : process) :
  Intent.name (Req.currentIntent r) = "DeploymentIntent" →
  Intent.slots (Req.currentIntent r) !! "environment" = Some (Some "prod") →
  let response :=
    {| Resp.sessionAttributes := default ∅ (Req.sessionAttributes r);
       Resp.dialogAction :=
         ElicitSlot "Deploytoprodintent" (Intent.slots (Req.currentIntent r)) "itsmnumber"
           {| contentType := "PlainText"; content := "Please provide valid ITSM number" |} |} in
  outcome (deploy_intent r) w = Return response ∧
  outcome (dispatch r) w = Return response ∧
  outcome (lambda_handler r ctx) w = Return response.
Proof.
  intros Hn Henv response.
  destruct (deployment_outcomes ctx r w Hn) as [-> ->].
  assert (outcome (deploy_intent r) w = Return response) as ->; [|done].
  unfold outcome. rewrite deploy_intent_eq, Henv.
  by rewrite decide_True.
Qed.

Lemma deployment_prod_elicits_itsmnumber_witness :
  Intent.name (Req.currentIntent (deploy_to (Some "prod"))) = "DeploymentIntent" ∧
  Intent.slots (Req.currentIntent (deploy_to (Some "prod"))) !! "environment"
    = Some (Some "prod") ∧
  outcome (lambda_handler (deploy_to (Some "prod")) tt) idle =
    Return {| Resp.sessionAttributes := {[ "team" := "infra" ]};
              Resp.dialogAction :=
                ElicitSlot "Deploytoprodintent" {[ "environment" := Some "prod" ]} "itsmnumber"
                  {| contentType := "PlainText";
                     content := "Please provide valid ITSM number" |} |}.
Proof.
  split; [reflexivity|]. split; [reflexivity|].
  apply (deployment_prod_elicits_itsmnumber tt (deploy_to (Some "prod")) idle);
    reflexivity.
Defined.

(** C2: on a [DeploymentIntent] event whose [environment] slot holds any
    value other than ["prod"], the handler returns [Close] with
    fulfillment state [Fulfilled]; and the same event with any other such
    value in the slot gives the same response (and leaves the same log). *)
Theorem deployment_non_prod_closes {C} (ctx : C) (r : Req.t) (w : process)
    (env : option string) :
  Intent.name (Req.currentIntent r) = "DeploymentIntent" →
  Intent.slots (Req.currentIntent r) !! "environment" = Some env →
  env ≠ Some "prod" →
  (outcome (deploy_intent r) w = Return (scheduled (Req.sessionAttributes r)) ∧
   outcome (dispatch r) w = Return (scheduled (Req.sessionAttributes r)) ∧
   outcome (lambda_handler r ctx) w = Return (scheduled (Req.sessionAttributes r))) ∧
  ∀ env' : option string,
    env' ≠ Some "prod" →
    deploy_intent (with_slot "environment" env' r) w = deploy_intent r w ∧
    dispatch (with_slot "environment" env' r) w = dispatch r w ∧
    lambda_handler (with_slot "environment" env' r) ctx w = lambda_handler r ctx w.
Proof.
  intros Hn Henv Hne. split.
  - destruct (deployment_outcomes ctx r w Hn) as [-> ->].
    unfold outcome. by rewrite (deploy_intent_non_prod r w env).
  - intros env' Hne'.
    rewrite !lambda_handler_dispatch, !dispatch_deployment by done.
    repeat split; by apply (deploy_intent_with_non_prod r _ env env').
Qed.

Lemma deployment_non_prod_closes_witness :
  Intent.name (Req.currentIntent (deploy_to (Some "staging"))) = "DeploymentIntent" ∧
  Intent.slots (Req.currentIntent (deploy_to (Some "staging"))) !! "environment"
    = Some (Some "staging") ∧
  Some "staging" ≠ Some "prod" ∧
  outcome (lambda_handler (deploy_to (Some "staging")) tt) idle =
    Return {| Resp.sessionAttributes := {[ "team" := "infra" ]};
              Resp.dialogAction :=
                Close "Fulfilled"
                  {| contentType := "PlainText";
                     content := "Your deployment is scheduled" |} |}.
Proof.
  split; [reflexivity|]. split; [reflexivity|]. split; [discriminate|].
  apply (deployment_non_prod_closes tt (deploy_to (Some "staging")) idle (Some "staging"));
    [reflexivity|reflexivity|discriminate].
Defined.

(** C9: on a [DeploymentIntent] event whose [environment] slot is null the
    handler neither raises nor asks for the slot again: it returns [Close]
    with fulfillment state [Fulfilled] and message "Your deployment is
    scheduled", the response it gives for every value other than
    ["prod"]. *)
Theorem deployment_null_environment_closes {C} (ctx : C) (r : Req.t) (w : process) :
  Intent.name (Req.currentIntent r) = "DeploymentIntent" →
  Intent.slots (Req.currentIntent r) !! "environment" = Some None →
  (outcome (deploy_intent r) w = Return (close (default ∅ (Req.sessionAttributes r)) "Fulfilled"
       {| contentType := "PlainText"; content := "Your deployment is scheduled" |}) ∧
   outcome (lambda_handler r ctx) w = outcome (deploy_intent r) w) ∧
  ∀ env : option string,
    env ≠ Some "prod" →
    outcome (lambda_handler (with_slot "environment" env r) ctx) w
    = outcome (lambda_handler r ctx) w.
Proof.
  intros Hn Henv. split.
  - destruct (deployment_outcomes ctx r w Hn) as [_ ->]. split; [|done].
    unfold outcome. by rewrite (deploy_intent_non_prod r w None).
  - intros env Hne. unfold outcome.
    rewrite !lambda_handler_dispatch, !dispatch_deployment by done.
    by rewrite (deploy_intent_with_non_prod r _ None env).
Qed.

Lemma deployment_null_environment_closes_witness :
  Intent.name (Req.currentIntent (deploy_to None)) = "DeploymentIntent" ∧
  Intent.slots (Req.currentIntent (deploy_to None)) !! "environment" = Some None ∧
  outcome (deploy_intent (deploy_to None)) idle =
    Return {| Resp.sessionAttributes := {[ "team" := "infra" ]};
              Resp.dialogAction :=
                Close "Fulfilled"
                  {| contentType := "PlainText";
                     content := "Your deployment is scheduled" |} |}.
Proof.
  split; [reflexivity|]. split; [reflexivity|].
  apply (deployment_null_environment_closes tt (deploy_to None) idle); reflexivity.
Defined.

(** ** The dispatcher *)

(** C5: on an event whose intent name is neither [DeploymentIntent] nor
    [Deploytoprodintent], the dispatcher raises the exception whose message
    is "Intent with name <name> not supported"; the entry point lets it
    through, and neither returns a response. *)
Theorem dispatch_unsupported_intent {C} (ctx : C) (r : Req.t) (w : process) :
  Intent.name (Req.currentIntent r) ≠ "DeploymentIntent" →
  Intent.name (Req.currentIntent r) ≠ "Deploytoprodintent" →
  let error :=
    Exception ("Intent with name " +:+ Intent.name (Req.currentIntent r)
               +:+ " not supported") in
  outcome (dispatch r) w = Raise error ∧
  outcome (lambda_handler r ctx) w = Raise error ∧
  ∀ response : Resp.t,
    outcome (dispatch r) w ≠ Return response ∧
    outcome (lambda_handler r ctx) w ≠ Return response.
Proof.
  intros H1 H2 error. unfold outcome.
  rewrite lambda_handler_dispatch, !dispatch_other by done. simpl.
  by repeat split.
Qed.

Lemma dispatch_unsupported_intent_witness :
  "CancelIntent" ≠ "DeploymentIntent" ∧ "CancelIntent" ≠ "Deploytoprodintent" ∧
  outcome (lambda_handler (event_of "CancelIntent" ∅ None) tt) idle =
    Raise (Exception "Intent with name CancelIntent not supported").
Proof.
  split; [discriminate|]. split; [discriminate|].
  apply (dispatch_unsupported_intent tt (event_of "CancelIntent" ∅ None) idle);
    discriminate.
Defined.

(** C8: the dispatcher calls the Deploy-to-Prod handler without its
    [intent_request] argument, so on every [Deploytoprodintent] event the
    call raises [TypeError] for the missing argument, whatever the handler
    would have returned on the event, and no response comes back from the
    dispatcher or from the entry point. *)
Theorem dispatch_prod_call_misses_argument {C} (ctx : C) (r : Req.t) (w : process) :
  Intent.name (Req.currentIntent r) = "Deploytoprodintent" →
  let error := TypeError (MissingArgument "deploy_prod_intent" "intent_request") in
  outcome (dispatch r) w = Raise error ∧
  outcome (lambda_handler r ctx) w = Raise error ∧
  ∀ response : Resp.t,
    outcome (dispatch r) w ≠ Return response ∧
    outcome (lambda_handler r ctx) w ≠ Return response.
Proof.
  intros Hn error. unfold outcome.
  rewrite lambda_handler_dispatch, !dispatch_prod by done. simpl.
  by repeat split.
Qed.

Lemma dispatch_prod_call_misses_argument_witness :
  Intent.name (Req.currentIntent (confirm_prod (Some "INC12345"))) = "Deploytoprodintent" ∧
  outcome (dispatch (confirm_prod (Some "INC12345"))) idle =
    Raise (TypeError (MissingArgument "deploy_prod_intent" "intent_request")).
Proof.
  split; [reflexivity|].
  apply (dispatch_prod_call_misses_argument tt (confirm_prod (Some "INC12345")) idle).
  reflexivity.
Defined.

(** Whatever the dispatcher returns, [deploy_intent] returned it. *)
Lemma dispatch_returns_inv (r : Req.t) (w : process) (response : Resp.t) :
  outcome (dispatch r) w = Return response →
  Intent.name (Req.currentIntent r) = "DeploymentIntent" ∧
  outcome (deploy_intent r) w = Return response.
Proof.
  intros Hret.
  destruct (decide (Intent.name (Req.currentIntent r) = "DeploymentIntent")) as [Hn|Hn].
  - split; [done|]. by destruct (deployment_outcomes tt r w Hn) as [<- _].
  - exfalso. unfold outcome in Hret.
    destruct (decide (Intent.name (Req.currentIntent r) = "Deploytoprodintent")).
    + by rewrite dispatch_prod in Hret.
    + by rewrite dispatch_other in Hret.
Qed.

Lemma lambda_handler_outcome {C} (ctx : C) (r : Req.t) (w : process) :
  outcome (lambda_handler r ctx) w = outcome (dispatch r) (entered r w).
Proof. unfold outcome. by rewrite lambda_handler_dispatch. Qed.

(** C10: a response that comes back from the dispatcher (or from the
    entry point, which returns what the dispatcher returns) has a dialog
    action of type [ElicitSlot] or [Close], never [ConfirmIntent] or
    [Delegate]. *)
Theorem dispatch_returns_elicit_or_close {C} (ctx : C) (r : Req.t) (w : process)
    (response : Resp.t) :
  outcome (dispatch r) w = Return response ∨
  outcome (lambda_handler r ctx) w = Return response →
  action_type (Resp.dialogAction response) = "ElicitSlot" ∨
  action_type (Resp.dialogAction response) = "Close".
Proof.
  intros Hret.
  assert (∃ w', outcome (deploy_intent r) w' = Return response) as [w' Hd].
  { destruct Hret as [Hret|Hret].
    - exists w. by apply dispatch_returns_inv.
    - rewrite lambda_handler_outcome in Hret.
      exists (entered r w). by apply dispatch_returns_inv. }
  unfold outcome in Hd. rewrite deploy_intent_eq in Hd.
  destruct (Intent.slots (Req.currentIntent r) !! "environment") as [env|]; [|done].
  simpl in Hd. injection Hd as <-.
  case_decide; [by left|by right].
Qed.

Lemma dispatch_returns_elicit_or_close_witness :
  outcome (dispatch (deploy_to (Some "prod"))) idle =
    Return (elicit_slot {[ "team" := "infra" ]} "Deploytoprodintent"
              {[ "environment" := Some "prod" ]} "itsmnumber"
              {| contentType := "PlainText";
                 content := "Please provide valid ITSM number" |}) ∧
  (action_type (ElicitSlot "Deploytoprodintent" {[ "environment" := Some "prod" ]}
                  "itsmnumber"
                  {| contentType := "PlainText";
                     content := "Please provide valid ITSM number" |}) = "ElicitSlot" ∨
   action_type (ElicitSlot "Deploytoprodintent" {[ "environment" := Some "prod" ]}
                  "itsmnumber"
                  {| contentType := "PlainText";
                     content := "Please provide valid ITSM number" |}) = "Close").
Proof.
  split; [reflexivity|].
  apply (dispatch_returns_elicit_or_close tt (deploy_to (Some "prod")) idle
           (elicit_slot {[ "team" := "infra" ]} "Deploytoprodintent"
              {[ "environment" := Some "prod" ]} "itsmnumber"
              {| contentType := "PlainText";
                 content := "Please provide valid ITSM number" |})).
  left. reflexivity.
Defined.

(** ** Session attributes *)

Lemma deploy_intent_echoes : echoes_session deploy_intent.
Proof.
  intros r w response Hret. unfold outcome in Hret.
  rewrite deploy_intent_eq in Hret. rewrite !deploy_intent_eq.
  setoid_rewrite deploy_intent_eq. simpl in *.
  destruct (Intent.slots (Req.currentIntent r) !! "environment") as [env|]; [|done].
  injection Hret as <-. by case_decide.
Qed.

Lemma deploy_prod_intent_echoes : echoes_session deploy_prod_intent.
Proof.
  intros r w response Hret. unfold outcome in Hret.
  rewrite deploy_prod_intent_eq in Hret. rewrite !deploy_prod_intent_eq.
  setoid_rewrite deploy_prod_intent_eq. simpl in *.
  destruct (Intent.slots (Req.currentIntent r) !! "itsmnumber") as [[n|]|]; [|done..].
  by injection Hret as <-.
Qed.

Lemma dispatch_echoes : echoes_session dispatch.
Proof.
  intros r w response Hret.
  destruct (dispatch_returns_inv r w response Hret) as [Hn _].
  unfold outcome in Hret. rewrite dispatch_deployment in Hret by done.
  destruct (deploy_intent_echoes r (dispatched r w) response Hret) as [Hsa Hany].
  split; [done|]. intros sa.
  rewrite !dispatch_deployment by done. apply Hany.
Qed.

Lemma lambda_handler_echoes {C} (ctx : C) :
  echoes_session (λ event, lambda_handler event ctx).
Proof.
  intros r w response Hret. simpl in *.
  rewrite lambda_handler_outcome in Hret.
  destruct (dispatch_echoes r (entered r w) response Hret) as [Hsa Hany].
  split; [done|]. intros sa.
  rewrite !lambda_handler_dispatch. apply Hany.
Qed.

(** C6: whenever a handler, the dispatcher or the entry point returns a
    response, its [sessionAttributes] are those of the request when they
    are not null and the empty map when they are; and nothing else depends
    on them: with any other session attributes on the request, the same
    dialog action comes back around those attributes and the process is
    left in the same state. *)
Theorem session_attributes_round_trip {C} (ctx : C) (h : Req.t → Py Resp.t)
    (r : Req.t) (w : process) (response : Resp.t) :
  h ∈ [deploy_intent; deploy_prod_intent; dispatch; λ event, lambda_handler event ctx] →
  outcome (h r) w = Return response →
  Resp.sessionAttributes response = default ∅ (Req.sessionAttributes r) ∧
  ∀ sa : option attributes,
    h (with_session sa r) w =
      (Return {| Resp.sessionAttributes := default ∅ sa;
                 Resp.dialogAction := Resp.dialogAction response |},
       snd (h r w)).
Proof.
  rewrite !elem_of_cons, elem_of_nil.
  intros [->|[->|[->|[->|[]]]]].
  - apply deploy_intent_echoes.
  - apply deploy_prod_intent_echoes.
  - apply dispatch_echoes.
  - apply (lambda_handler_echoes ctx).
Qed.

Lemma session_attributes_round_trip_witness :
  (λ event, lambda_handler event tt)
    ∈ [deploy_intent; deploy_prod_intent; dispatch; λ event, lambda_handler event tt] ∧
  outcome (lambda_handler (deploy_to (Some "dev")) tt) idle
    = Return (scheduled (Some {[ "team" := "infra" ]})) ∧
  Resp.sessionAttributes (scheduled (Some {[ "team" := "infra" ]}))
    = default ∅ (Req.sessionAttributes (deploy_to (Some "dev"))).
Proof.
  assert ((λ event, lambda_handler event tt)
            ∈ [deploy_intent; deploy_prod_intent; dispatch;
               λ event, lambda_handler event tt]) as Hin.
  { do 3 apply list_elem_of_further. apply list_elem_of_here. }
  split; [exact Hin|]. split; [reflexivity|].
  apply (session_attributes_round_trip tt (λ event, lambda_handler event tt)
           (deploy_to (Some "dev")) idle (scheduled (Some {[ "team" := "infra" ]})) Hin).
  reflexivity.
Defined.

(** ** The prod confirmation intent *)

(** The handler itself, called on a request whose [itsmnumber] slot is a
    string, closes the dialog. *)
Lemma deploy_prod_intent_closes (r : Req.t) (w : process) (itsm : string) :
  Intent.slots (Req.currentIntent r) !! "itsmnumber" = Some (Some itsm) →
  outcome (deploy_prod_intent r) w = Return (scheduled (Req.sessionAttributes r)).
Proof. intros Hs. unfold outcome. by rewrite deploy_prod_intent_eq, Hs. Qed.

(** The handler itself, called on a request whose [itsmnumber] slot is
    null, raises while it builds the log record. *)
Lemma deploy_prod_intent_null_raises (r : Req.t) (w : process) :
  Intent.slots (Req.currentIntent r) !! "itsmnumber" = Some None →
  outcome (deploy_prod_intent r) w = Raise (TypeError ConcatNone).
Proof. intros Hs. unfold outcome. by rewrite deploy_prod_intent_eq, Hs. Qed.

(** C3 fails on the code: on the [Deploytoprodintent] event with a null
    [itsmnumber] the invocation raises [TypeError] for the argument the
    dispatcher does not pass, and the handler called on the event raises
    [TypeError] too, on ["itsm_number" + None], before it reaches its
    [ElicitSlot] branch. *)
Theorem prod_null_itsmnumber_raises :
  outcome (lambda_handler (confirm_prod None) tt) idle
    = Raise (TypeError (MissingArgument "deploy_prod_intent" "intent_request")) ∧
  outcome (dispatch (confirm_prod None)) idle
    = Raise (TypeError (MissingArgument "deploy_prod_intent" "intent_request")) ∧
  outcome (deploy_prod_intent (confirm_prod None)) idle = Raise (TypeError ConcatNone).
Proof. repeat split. Qed.

(** C4 fails on the code: on the [Deploytoprodintent] event with
    [itsmnumber] "INC12345" the invocation raises [TypeError] for the
    argument the dispatcher does not pass, although the handler called on
    the event returns [Close] with [Fulfilled]. *)
Theorem prod_itsmnumber_invocation_raises :
  outcome (lambda_handler (confirm_prod (Some "INC12345")) tt) idle
    = Raise (TypeError (MissingArgument "deploy_prod_intent" "intent_request")) ∧
  outcome (dispatch (confirm_prod (Some "INC12345"))) idle
    = Raise (TypeError (MissingArgument "deploy_prod_intent" "intent_request")) ∧
  outcome (deploy_prod_intent (confirm_prod (Some "INC12345"))) idle
    = Return {| Resp.sessionAttributes := ∅;
                Resp.dialogAction :=
                  Close "Fulfilled"
                    {| contentType := "PlainText";
                       content := "Your deployment is scheduled" |} |}.
Proof. repeat split. Qed.

(** ** Failure and success of an invocation *)

(** X1: a [DeploymentIntent] event whose slot map has no [environment] key
    makes the handler raise [KeyError] for that key; the dispatcher and the
    entry point let it through, and the handler has logged nothing. *)
Theorem deployment_missing_environment_raises {C} (ctx : C) (r : Req.t) (w : process) :
  Intent.name (Req.currentIntent r) = "DeploymentIntent" →
  Intent.slots (Req.currentIntent r) !! "environment" = None →
  deploy_intent r w = (Raise (KeyError "environment"), w) ∧
  outcome (dispatch r) w = Raise (KeyError "environment") ∧
  outcome (lambda_handler r ctx) w = Raise (KeyError "environment").
Proof.
  intros Hn Henv.
  destruct (deployment_outcomes ctx r w Hn) as [-> ->].
  unfold outcome. by rewrite deploy_intent_eq, Henv.
Qed.

Lemma deployment_missing_environment_raises_witness :
  Intent.name (Req.currentIntent (event_of "DeploymentIntent" ∅ None)) = "DeploymentIntent" ∧
  Intent.slots (Req.currentIntent (event_of "DeploymentIntent" ∅ None)) !! "environment"
    = None ∧
  outcome (lambda_handler (event_of "DeploymentIntent" ∅ None) tt) idle
    = Raise (KeyError "environment").
Proof.
  split; [reflexivity|]. split; [reflexivity|].
  apply (deployment_missing_environment_raises tt (event_of "DeploymentIntent" ∅ None) idle);
    reflexivity.
Defined.


(** ** The prod confirmation handler, called on a request *)

(** X3: whenever the handler returns, the [itsmnumber] slot of the request
    holds a string, the response is [Close] with [Fulfilled], and exactly
    one record, "itsm_number" followed by that string, was logged.  The
    handler never returns its [ElicitSlot] response. *)
Theorem deploy_prod_intent_returns_inv (r : Req.t) (w : process) (response : Resp.t) :
  outcome (deploy_prod_intent r) w = Return response →
  (∃ itsm : string,
     Intent.slots (Req.currentIntent r) !! "itsmnumber" = Some (Some itsm) ∧
     log (snd (deploy_prod_intent r w)) = log w ++ ["itsm_number" +:+ itsm]) ∧
  response = close (default ∅ (Req.sessionAttributes r)) "Fulfilled"
               {| contentType := "PlainText"; content := "Your deployment is scheduled" |} ∧
  action_type (Resp.dialogAction response) ≠ "ElicitSlot".
Proof.
  unfold outcome. rewrite deploy_prod_intent_eq.
  destruct (Intent.slots (Req.currentIntent r) !! "itsmnumber") as [[itsm|]|]; [|done..].
  simpl. intros [= <-]. split; [by exists itsm|]. by split.
Qed.

Lemma deploy_prod_intent_returns_inv_witness :
  outcome (deploy_prod_intent (confirm_prod (Some ""))) idle = Return (scheduled None) ∧
  scheduled None = close (default ∅ (Req.sessionAttributes (confirm_prod (Some ""))))
                     "Fulfilled"
                     {| contentType := "PlainText";
                        content := "Your deployment is scheduled" |}.
Proof.
  split; [reflexivity|].
  apply (deploy_prod_intent_returns_inv (confirm_prod (Some "")) idle (scheduled None)).
  reflexivity.
Defined.


(** ** What an invocation leaves behind *)

(** The dispatcher leaves the process in the state it logged its record in,
    whatever branch it takes. *)
Lemma dispatch_process (r : Req.t) (w : process) :
  snd (dispatch r w) = dispatched r w.
Proof.
  destruct (decide (Intent.name (Req.currentIntent r) = "DeploymentIntent")).
  - rewrite dispatch_deployment by done. by rewrite deploy_intent_eq.
  - destruct (decide (Intent.name (Req.currentIntent r) = "Deploytoprodintent")).
    + by rewrite dispatch_prod.
    + by rewrite dispatch_other.
Qed.

(** X5: every invocation, whether it returns or raises, sets [TZ] to
    America/New_York in the environment and leaves every other variable as
    it was, installs that timezone, and adds exactly two records to the
    log: the bot name, then the user and the intent name.  Slot values and
    session attributes are never logged. *)
Theorem lambda_handler_process {C} (ctx : C) (r : Req.t) (w : process) :
  let w' := snd (lambda_handler r ctx w) in
  environ w' = <["TZ" := "America/New_York"]> (environ w) ∧
  (∀ k : string, k ≠ "TZ" → environ w' !! k = environ w !! k) ∧
  timezone w' = Some "America/New_York" ∧
  log w' = log w ++ [ "event.bot.name=" +:+ Bot.name (Req.bot r);
                      "dispatch userId=" +:+ Req.userId r +:+ ", intentName="
                        +:+ Intent.name (Req.currentIntent r) ].
Proof.
  simpl. rewrite lambda_handler_dispatch, dispatch_process. simpl.
  repeat split.
  - intros k Hk. by rewrite lookup_insert_ne.
  - by rewrite <- app_assoc.
Qed.

(** X6: setting the timezone is idempotent across invocations: a second
    invocation leaves the environment and the timezone as the first one
    left them, and the log holds the four records of the two invocations
    after what it held before. *)
Theorem lambda_handler_twice {C} (ctx : C) (r1 r2 : Req.t) (w : process) :
  let w1 := snd (lambda_handler r1 ctx w) in
  let w2 := snd (lambda_handler r2 ctx w1) in
  environ w2 = environ w1 ∧
  timezone w2 = timezone w1 ∧
  log w2 = log w ++ [ "event.bot.name=" +:+ Bot.name (Req.bot r1);
                      "dispatch userId=" +:+ Req.userId r1 +:+ ", intentName="
                        +:+ Intent.name (Req.currentIntent r1);
                      "event.bot.name=" +:+ Bot.name (Req.bot r2);
                      "dispatch userId=" +:+ Req.userId r2 +:+ ", intentName="
                        +:+ Intent.name (Req.currentIntent r2) ].
Proof.
  simpl. rewrite !lambda_handler_dispatch, !dispatch_process. simpl.
  split; [by rewrite insert_insert_eq|]. split; [done|].
  by rewrite <- !app_assoc.
Qed.

(** X7: what an invocation returns or raises depends on the intent and on
    the session attributes of the event only: not on the user, the bot, the
    Lambda context or the state of the process. *)
Theorem lambda_handler_depends_only_on {C C'} (ctx : C) (ctx' : C') (r r' : Req.t)
    (w w' : process) :
  Req.currentIntent r = Req.currentIntent r' →
  Req.sessionAttributes r = Req.sessionAttributes r' →
  outcome (lambda_handler r ctx) w = outcome (lambda_handler r' ctx') w'.
Proof.
  intros Hi Hs. rewrite !lambda_handler_outcome. unfold outcome.
  destruct (decide (Intent.name (Req.currentIntent r) = "DeploymentIntent")) as [Hn|Hn].
  - rewrite !dispatch_deployment, !deploy_intent_eq by congruence.
    by rewrite Hi, Hs.
  - destruct (decide (Intent.name (Req.currentIntent r) = "Deploytoprodintent")) as [Hp|Hp].
    + by rewrite !dispatch_prod by congruence.
    + rewrite !dispatch_other by congruence. by rewrite Hi.
Qed.

Lemma lambda_handler_depends_only_on_witness :
  Req.currentIntent (deploy_to (Some "prod"))
    = Req.currentIntent
        {| Req.bot := {| Bot.name := "OtherBot" |}; Req.userId := "user-2";
           Req.currentIntent := Req.currentIntent (deploy_to (Some "prod"));
           Req.sessionAttributes := Some {[ "team" := "infra" ]} |} ∧
  outcome (lambda_handler (deploy_to (Some "prod")) tt) idle
    = outcome (lambda_handler
                 {| Req.bot := {| Bot.name := "OtherBot" |}; Req.userId := "user-2";
                    Req.currentIntent := Req.currentIntent (deploy_to (Some "prod"));
                    Req.sessionAttributes := Some {[ "team" := "infra" ]} |} 7)
        {| environ := {[ "TZ" := "UTC" ]}; timezone := Some "UTC"; log := ["old"] |}.
Proof.
  split; [reflexivity|].
  apply (lambda_handler_depends_only_on tt 7 (deploy_to (Some "prod"))); reflexivity.
Defined.

(** ** The message of the unsupported-intent error *)

Lemma append_length (s t : string) :
  String.length (s +:+ t) = String.length s + String.length t.
Proof. induction s as [|a s IH]; simpl; [done|]. by rewrite <- IH. Qed.

(** Appending a common suffix loses nothing. *)
Lemma append_inj_suffix (t : string) : ∀ s1 s2 : string, s1 +:+ t = s2 +:+ t → s1 = s2.
Proof.
  induction s1 as [|a s1 IH]; intros [|b s2] Heq.
  - done.
  - apply (f_equal String.length) in Heq.
    change (String.length t = S (String.length (s2 +:+ t))) in Heq.
    rewrite append_length in Heq. lia.
  - apply (f_equal String.length) in Heq.
    change (S (String.length (s1 +:+ t)) = String.length t) in Heq.
    rewrite append_length in Heq. lia.
  - change (String a (s1 +:+ t) = String b (s2 +:+ t)) in Heq.
    injection Heq as -> Heq. f_equal. by apply IH.
Qed.

(** X8: the error raised for an unsupported intent name determines the
    name: two events with unsupported names that make the dispatcher raise
    the same error have the same intent name. *)
Theorem unsupported_intent_error_names_intent (r1 r2 : Req.t) (w1 w2 : process) :
  Intent.name (Req.currentIntent r1) ∉ ["DeploymentIntent"; "Deploytoprodintent"] →
  Intent.name (Req.currentIntent r2) ∉ ["DeploymentIntent"; "Deploytoprodintent"] →
  outcome (dispatch r1) w1 = outcome (dispatch r2) w2 →
  Intent.name (Req.currentIntent r1) = Intent.name (Req.currentIntent r2).
Proof.
  rewrite !not_elem_of_cons. intros (H1 & H1' & _) (H2 & H2' & _).
  unfold outcome. rewrite !dispatch_other by done. simpl. intros Heq.
  assert ("Intent with name " +:+ Intent.name (Req.currentIntent r1) +:+ " not supported"
          = "Intent with name " +:+ Intent.name (Req.currentIntent r2) +:+ " not supported")
    as Hmsg by congruence.
  apply (inj (String.app "Intent with name ")) in Hmsg.
  by apply append_inj_suffix in Hmsg.
Qed.

Lemma unsupported_intent_error_names_intent_witness :
  ("CancelIntent" ∉ ["DeploymentIntent"; "Deploytoprodintent"]) ∧
  outcome (dispatch (event_of "CancelIntent" ∅ None)) idle
    = outcome (dispatch (event_of "CancelIntent" {[ "environment" := None ]} None)) idle ∧
  Intent.name (Req.currentIntent (event_of "CancelIntent" ∅ None))
    = Intent.name (Req.currentIntent (event_of "CancelIntent" {[ "environment" := None ]} None)).
Proof.
  assert ("CancelIntent" ∉ ["DeploymentIntent"; "Deploytoprodintent"]) as Hn.
  { rewrite !not_elem_of_cons. repeat split; [discriminate..|]. apply not_elem_of_nil. }
  split; [exact Hn|]. split; [reflexivity|].
  apply (unsupported_intent_error_names_intent
           (event_of "CancelIntent" ∅ None)
           (event_of "CancelIntent" {[ "environment" := None ]} None) idle idle Hn Hn).
  reflexivity.
Defined.

(** ** Rebuilding a card *)

(** X9: the builder is idempotent on its own output: a card built again
    from the buttons of a card it returned, under the same title and
    subtitle, is that card (null buttons stay null, five buttons stay the
    same five). *)
Theorem build_response_card_rebuild {B} (title subtitle : string)
    (options : option (list B)) (card : Card.t B) (a : Card.attachment B) :
  build_response_card title subtitle options = Return card →
  Card.genericAttachments card = [a] →
  build_response_card title subtitle (Card.buttons a) = Return card.
Proof.
  unfold build_response_card, mbind, result_bind, mret, result_ret.
  destruct options as [opts|].
  - rewrite append_options_first_five. intros [= <-] [= <-]. cbn [Card.buttons].
    rewrite append_options_first_five. by rewrite take_take, Nat.min_id.
  - by intros [= <-] [= <-].
Qed.

Lemma build_response_card_rebuild_witness :
  build_response_card "Environment" "Pick one"
    (Some ["dev"; "qa"; "uat"; "stage"; "perf"; "dr"; "prod"])
    = Return {| Card.contentType := "application/vnd.amazonaws.card.generic";
                Card.version := 1;
                Card.genericAttachments :=
                  [ {| Card.title := "Environment"; Card.subTitle := "Pick one";
                       Card.buttons := Some ["dev"; "qa"; "uat"; "stage"; "perf"] |} ] |} ∧
  build_response_card "Environment" "Pick one" (Some ["dev"; "qa"; "uat"; "stage"; "perf"])
    = Return {| Card.contentType := "application/vnd.amazonaws.card.generic";
                Card.version := 1;
                Card.genericAttachments :=
                  [ {| Card.title := "Environment"; Card.subTitle := "Pick one";
                       Card.buttons := Some ["dev"; "qa"; "uat"; "stage"; "perf"] |} ] |}.
Proof.
  split; [reflexivity|].
  apply (build_response_card_rebuild "Environment" "Pick one"
           (Some ["dev"; "qa"; "uat"; "stage"; "perf"; "dr"; "prod"])
           {| Card.contentType := "application/vnd.amazonaws.card.generic";
              Card.version := 1;
              Card.genericAttachments :=
                [ {| Card.title := "Environment"; Card.subTitle := "Pick one";
                     Card.buttons := Some ["dev"; "qa"; "uat"; "stage"; "perf"] |} ] |}
           {| Card.title := "Environment"; Card.subTitle := "Pick one";
              Card.buttons := Some ["dev"; "qa"; "uat"; "stage"; "perf"] |});
    reflexivity.
Defined.
